(** * google-drive-download: a shallow embedding of [src/main.ts]

    The action is one TypeScript module: a URL-to-identifier parser
    ([parseDriveIdFromURL]), an endpoint builder ([getGoogleDriveUrl]), the
    run phase ([run]), one download ([downloadFile]), the inert post phase
    ([post]) and the dispatcher at module level ([main]).

    Every call into the host SDK ([core.*]), the HTTP client ([axios.get])
    and the file system ([fs.*]) is recorded as an [Event]; a computation is
    the trace of its events together with its outcome (a returned value or a
    thrown exception). *)

From stdpp Require Import base option list strings gmap pretty.
From Stdlib Require Import ZArith Lia Ascii.

Local Open Scope Z_scope.

(** ** JavaScript string primitives

    A JavaScript string is a sequence of code units; [string] is used for it,
    one character per code unit. The paths that are sliced below come out of
    the URL serializer and are ASCII. *)
Module JS.

(** Truthiness of a string: only the empty string is falsy. *)
Definition truthy (s : string) : bool :=
  match s with
  | EmptyString => false
  | String _ _ => true
  end.

(** Truthiness of [string | undefined]. *)
Definition truthy_opt (o : option string) : bool :=
  match o with
  | None => false
  | Some s => truthy s
  end.

(** [a || b] on strings. *)
Definition or (a b : string) : string := if truthy a then a else b.

(** [s.startsWith(p)]. *)
Definition startsWith (s p : string) : bool := String.prefix p s.

(** [s.endsWith(p)]: the search starts at [s.length - p.length]; a negative
    start answers false. *)
Definition endsWith (s p : string) : bool :=
  let n := String.length s in
  let m := String.length p in
  if (m <=? n)%nat
  then bool_decide (String.substring (n - m) m s = p)
  else false.

(** An index argument of [slice], made relative to the length [len]:
    negative indices count from the end. Minus zero is zero. *)
Definition relative (len i : Z) : Z :=
  if i <? 0 then Z.max (len + i) 0 else Z.min i len.

(** [s.slice(start, stop)]. *)
Definition slice (s : string) (start stop : Z) : string :=
  let len := Z.of_nat (String.length s) in
  let from := relative len start in
  let to := relative len stop in
  String.substring (Z.to_nat from) (Z.to_nat (Z.max (to - from) 0)) s.

(** [s.length] as a number. *)
Definition length (s : string) : Z := Z.of_nat (String.length s).

(** A number with an integer value inside a template literal. *)
Definition number_to_string (n : Z) : string := pretty n.

End JS.

(** ** Data model *)

(** [type FileMetadata = { name: string, id: string }]. *)
Record FileMetadata := mkFileMetadata { name : string; id : string }.

(** One entry of the [files] array of a listing response. *)
Record DriveFile := mkDriveFile {
  file_name : string;
  file_id : string;
  mimeType : string
}.

(** A value handed to [core.saveState]. *)
Inductive StateValue :=
| VBool (b : bool)
| VStr (s : string).

(** A query parameter of a request. *)
Inductive ParamValue :=
| PStr (s : string)
| PBool (b : bool)
| PNum (n : Z).

(** The arguments of one [axios.get(url, options)] call. *)
Record Request := mkRequest {
  req_url : string;
  req_headers : list (string * string);
  req_params : list (string * ParamValue);
  req_responseType : option string
}.

(** What the code reads of a response: [status], [data.files] of a listing
    and [data] as the byte stream of a download. *)
Record Response := mkResponse {
  status : Z;
  data_files : list DriveFile;
  data_stream : string
}.

(** The observable actions of the module, in program order. *)
Inductive Event :=
| SaveState (key : string) (v : StateValue)
| GetState (key : string)
| GetInput (input : string)
| SetFailed (msg : string)
| Info (msg : string)
| Warning (msg : string)
| Error (msg : string)
| HttpGet (req : Request)
| MkdirSync (path : string)   (* a directory was created *)
| CreateWriteStream (path : string)
| Pipe (bytes : string) (path : string).

(** Exceptions the module lets escape. *)
Inductive Exn :=
| InvalidURL (input : string)
| RequestRejected (req : Request)
| MkdirFailed (path : string).

Inductive Outcome (A : Type) :=
| Return (a : A)
| Throw (e : Exn).
Arguments Return {A} a.
Arguments Throw {A} e.

(** ** The effect monad: a trace of events and an outcome *)
Definition M (A : Type) : Type := list Event * Outcome A.

Definition ret {A} (a : A) : M A := ([], Return a).

Definition bind {A B} (m : M A) (k : A → M B) : M B :=
  match m with
  | (t, Return a) => let '(t', o) := k a in (t ++ t', o)
  | (t, Throw e) => (t, Throw e)
  end.

Definition emit (e : Event) : M unit := ([e], Return tt).

Definition throw {A} (e : Exn) : M A := ([], Throw e).

Definition trace {A} (m : M A) : list Event := m.1.

Definition outcome {A} (m : M A) : Outcome A := m.2.

#[global] Instance M_ret : MRet M := @ret.

#[global] Instance M_bind : MBind M := λ A B k m, bind m k.

(** [a ?? b]: the right operand is evaluated only when the left one is
    [undefined] (or [null]). *)
Definition nullish {A} (a : option A) (b : M (option A)) : M (option A) :=
  match a with
  | Some v => ret (Some v)
  | None => b
  end.

(** ** The environment of one process run *)
Record Env := mkEnv {
  (** [core.getInput]: the trimmed input, the empty string when unset. *)
  inputs : string → string;
  (** [core.getState]: the saved value, the empty string when unset. *)
  saved : string → string;
  (** The [pathname] of [new URL(s)]; [None] when the constructor throws. *)
  pathname : string → option string;
  (** The answer to a request; [None] when the promise rejects. *)
  http : Request → option Response;
  (** Whether [fs.mkdirSync] succeeds on a path. *)
  mkdir_ok : string → bool;
  (** The order in which downloads that are in flight get their answers. *)
  arrival : list FileMetadata → list FileMetadata
}.

(** [getGoogleDriveUrl(driveId = undefined)], lines 30-32. *)
Definition getGoogleDriveUrl (driveId : option string) : string :=
  "https://www.googleapis.com/drive/v3/files/" +:+ default "" driveId.

Section Program.

Context (env : Env).

Definition core_getInput (input : string) : M string :=
  emit (GetInput input) ;; ret (inputs env input).

Definition core_getState (key : string) : M string :=
  emit (GetState key) ;; ret (saved env key).

Definition new_URL_pathname (s : string) : M string :=
  match pathname env s with
  | Some p => ret p
  | None => throw (InvalidURL s)
  end.

(** [await axios.get(url, options)]. *)
Definition axios_get (req : Request) : M Response :=
  emit (HttpGet req) ;;
  match http env req with
  | Some r => ret r
  | None => throw (RequestRejected req)
  end.

(** [fs.mkdirSync(path)]: the directory is created, or the call throws. *)
Definition fs_mkdirSync (path : string) : M unit :=
  if mkdir_ok env path then emit (MkdirSync path) else throw (MkdirFailed path).

(** [parseDriveIdFromURL(isFile, path?)], lines 10-28. *)
Definition parseDriveIdFromURL (isFile : bool) (path : option string)
  : M (option string) :=
  if negb (JS.truthy_opt path) then ret None
  else
    let path := default "" path in
    let prefix := if isFile then "/file/d/" else "/drive/folders/" in
    let suffix := if isFile then "/view" else "" in
    urlPath ← new_URL_pathname path;
    if negb (JS.startsWith urlPath prefix) || negb (JS.endsWith urlPath suffix)
    then
      emit (Error ("file-url path seems ill-formed: " +:+ path +:+ ")")) ;;
      ret None
    else
      let driveId := JS.slice urlPath (JS.length prefix) (- JS.length suffix) in
      ret (Some driveId).

(** [fileIds.forEach(f)] for a callback with effects only. *)
Fixpoint forEach {A} (l : list A) (f : A → M unit) : M unit :=
  match l with
  | [] => ret tt
  | x :: rest => f x ;; forEach rest f
  end.

(** The options of the request made by [downloadFile], lines 126-138. *)
Definition download_request (token : string) (file : FileMetadata) : Request :=
  {| req_url := getGoogleDriveUrl (Some (id file));
     req_headers := [("Authorization", "Bearer " +:+ token);
                     ("Accept", "application/octet-stream")];
     req_params := [("alt", PStr "media"); ("supportsAllDrives", PBool true)];
     req_responseType := Some "stream" |}.

(** [downloadFile] from the point where the awaited response is there,
    lines 141-150. *)
Definition downloadFile_resume (file : FileMetadata) (response : Response)
  : M unit :=
  if bool_decide (status response ≠ 200) then
    emit (SetFailed ("Failed to get file from Google drive: "
                     +:+ JS.number_to_string (status response)))
  else
    emit (SaveState "path" (VStr (name file))) ;;
    emit (CreateWriteStream (name file)) ;;
    emit (Pipe (data_stream response) (name file)).

(** [downloadFile(token, file)], lines 124-151. *)
Definition downloadFile (token : string) (file : FileMetadata) : M unit :=
  response ← axios_get (download_request token file);
  downloadFile_resume file response.

(** A task that was started and is not awaited: what it does later is
    observable, an exception it raises stays inside its own promise. *)
Definition detached (m : M unit) : M unit := (trace m, Return tt).

(** What a download that is in flight does once it is answered. *)
Definition downloadFile_answered (token : string) (file : FileMetadata)
  : M unit :=
  match http env (download_request token file) with
  | Some response => downloadFile_resume file response
  | None => throw (RequestRejected (download_request token file))
  end.

(** The options of the listing request, lines 81-92. *)
Definition list_request (token finalFolderId : string) : Request :=
  {| req_url := getGoogleDriveUrl None;
     req_headers := [("Authorization", "Bearer " +:+ token)];
     req_params := [("q", PStr ("'" +:+ finalFolderId +:+ "' in parents"));
                    ("supportsAllDrives", PBool true);
                    ("pageSize", PNum 1000)];
     req_responseType := None |}.

(** [response.data.files.forEach(file => ...)], lines 102-109; the callback
    pushes onto [fileIds], which is threaded through. *)
Fixpoint add_files (files : list DriveFile) (fileIds : list FileMetadata)
  : M (list FileMetadata) :=
  match files with
  | [] => ret fileIds
  | file :: rest =>
      if bool_decide (mimeType file = "application/vnd.google-apps.folder") then
        emit (Warning ("Folder with name " +:+ file_name file +:+
                       " found, skipping as nested folders are not supported")) ;;
        add_files rest fileIds
      else
        emit (Info ("Adding file " +:+ file_name file +:+
                    " to list of files to download")) ;;
        add_files rest (fileIds ++ [mkFileMetadata (file_name file) (file_id file)])
  end.

(** The branch [if (isFile) { ... }], lines 64-72. [None] stands for the
    early [return] out of [run]. *)
Definition resolve_file (fileId fileUrl path : string)
  (fileIds : list FileMetadata) : M (option (list FileMetadata)) :=
  finalFileId ← nullish (Some fileId) (parseDriveIdFromURL true (Some fileUrl));
  if negb (JS.truthy_opt finalFileId) then
    emit (SetFailed "Unknown file id") ;; ret None
  else
    emit (Info ("Downloading file with Id " +:+ fileId)) ;;
    ret (Some (fileIds ++ [mkFileMetadata path (default "" finalFileId)])).

(** The branch [else { ... }], lines 73-110. *)
Definition resolve_folder (token folderId folderUrl : string)
  (fileIds : list FileMetadata) : M (option (list FileMetadata)) :=
  finalFolderId ← nullish (Some folderId) (parseDriveIdFromURL false (Some folderUrl));
  if negb (JS.truthy_opt finalFolderId) then
    emit (SetFailed "Action could not determine folder id") ;; ret None
  else
    let finalFolderId := default "" finalFolderId in
    emit (Info ("Searching folder with Id " +:+ finalFolderId)) ;;
    response ← axios_get (list_request token finalFolderId);
    if bool_decide (status response ≠ 200) then
      emit (SetFailed ("Failed to list files in folder from Google drive: "
                       +:+ JS.number_to_string (status response))) ;;
      ret None
    else
      fileIds ← add_files (data_files response) fileIds;
      ret (Some fileIds).

(** The dispatch on [fileIds.length], lines 112-121. In the last branch each
    callback runs [downloadFile] up to its [await], so the requests go out in
    list order; the answers are then handled in the order [arrival] gives. *)
Definition dispatch (token path : string) (fileIds : list FileMetadata)
  : M unit :=
  match fileIds with
  | [] => emit (SetFailed "Failed to find any files to download")
  | [file] => downloadFile token file
  | _ =>
      fs_mkdirSync path ;;
      forEach fileIds (λ file, emit (HttpGet (download_request token file))) ;;
      forEach (arrival env fileIds)
              (λ file, detached (downloadFile_answered token file))
  end.

(** [run()], lines 34-122. *)
Definition run : M unit :=
  emit (SaveState "isPost" (VBool true)) ;;
  token ← core_getInput "token";
  if negb (JS.truthy token) then
    emit (SetFailed "No access token provided to action")
  else
    fileId ← core_getInput "file-id";
    fileUrl ← core_getInput "file-url";
    folderId ← core_getInput "folder-id";
    folderUrl ← core_getInput "folder-url";
    if negb (JS.truthy fileId) && negb (JS.truthy fileUrl)
       && negb (JS.truthy folderId) && negb (JS.truthy folderUrl)
    then
      emit (SetFailed "You must define one of following four inputs: fileId, fileUrl, folderId, folderUrl")
    else
      path ← core_getInput "path";
      if negb (JS.truthy path) then
        emit (SetFailed "No path provided to action")
      else
        let isFile := JS.or fileId fileUrl in
        let fileIds := [] in
        resolved ← (if JS.truthy isFile
                    then resolve_file fileId fileUrl path fileIds
                    else resolve_folder token folderId folderUrl fileIds);
        match resolved with
        | None => ret tt
        | Some fileIds => dispatch token path fileIds
        end.

(** [post()], lines 153-161: the body is commented out. *)
Definition post : M unit := ret tt.

(** The statement at module level, lines 163-167. *)
Definition main : M unit :=
  isPost ← core_getState "isPost";
  if negb (JS.truthy isPost) then run else post.

End Program.

(** ** Observations on a trace *)

Definition failures (t : list Event) : list string :=
  omap (λ e, match e with SetFailed msg => Some msg | _ => None end) t.

Definition network_calls (t : list Event) : list Request :=
  omap (λ e, match e with HttpGet req => Some req | _ => None end) t.

Definition errors (t : list Event) : list string :=
  omap (λ e, match e with Error msg => Some msg | _ => None end) t.

Definition warnings (t : list Event) : list string :=
  omap (λ e, match e with Warning msg => Some msg | _ => None end) t.

(** ** The step state and the file system a trace acts on *)
Record World := mkWorld {
  step_state : gmap string StateValue;
  disk_files : gmap string string;
  disk_dirs : gset string
}.

Definition apply_event (w : World) (e : Event) : World :=
  match e with
  | SaveState key v =>
      mkWorld (<[key := v]> (step_state w)) (disk_files w) (disk_dirs w)
  | MkdirSync path =>
      mkWorld (step_state w) (disk_files w) ({[path]} ∪ disk_dirs w)
  | CreateWriteStream path =>
      mkWorld (step_state w) (<[path := ""]> (disk_files w)) (disk_dirs w)
  | Pipe bytes path =>
      mkWorld (step_state w) (<[path := bytes]> (disk_files w)) (disk_dirs w)
  | _ => w
  end.

Definition exec (w : World) (t : list Event) : World := foldl apply_event w t.

(** ** A reading of [new URL(s).pathname] on plain URLs

    The URL parser belongs to the runtime. The statements below hold for any
    [pathname]; the concrete examples use this partial one, defined on
    [http://] and [https://] URLs made of a host of ASCII letters and a path
    of ASCII letters, digits, [-], [_] and [/]. On those the parser leaves the
    path as it is written (nothing to percent-encode, no dot segment), and a
    missing path reads [/]. Everywhere else it answers [None]. *)
Definition is_letter (c : ascii) : bool :=
  let n := Ascii.N_of_ascii c in
  ((65 <=? n) && (n <=? 90) || (97 <=? n) && (n <=? 122))%N.

Definition is_digit (c : ascii) : bool :=
  let n := Ascii.N_of_ascii c in ((48 <=? n) && (n <=? 57))%N.

Definition is_path_char (c : ascii) : bool :=
  is_letter c || is_digit c
  || bool_decide (c = "-"%char) || bool_decide (c = "_"%char)
  || bool_decide (c = "/"%char).

Fixpoint string_forallb (p : ascii → bool) (s : string) : bool :=
  match s with
  | EmptyString => true
  | String c rest => p c && string_forallb p rest
  end.

Fixpoint path_after_host (s : string) (seen_host : bool) : option string :=
  match s with
  | EmptyString => if seen_host then Some "/" else None
  | String c rest =>
      if bool_decide (c = "/"%char) then
        if seen_host && string_forallb is_path_char s then Some s else None
      else if is_letter c then path_after_host rest true
      else None
  end.

Definition plain_pathname (url : string) : option string :=
  if String.prefix "https://" url then
    path_after_host (String.substring 8 (String.length url - 8) url) false
  else if String.prefix "http://" url then
    path_after_host (String.substring 7 (String.length url - 7) url) false
  else None.

(** ** Concrete environments for the examples *)

(** Inputs given as a table; an input that is not set reads as the empty
    string. *)
Fixpoint lookup_input (table : list (string * string)) (key : string) : string :=
  match table with
  | [] => ""
  | (k, v) :: rest => if bool_decide (k = key) then v else lookup_input rest key
  end.

(** An environment on plain URLs where every request is answered by
    [answer]. *)
Definition plain_env (table : list (string * string))
  (answer : Request → option Response) : Env :=
  {| inputs := lookup_input table;
     saved := λ _, "";
     pathname := plain_pathname;
     http := answer;
     mkdir_ok := λ _, true;
     arrival := λ l, l |}.

Definition no_answer : Request → option Response := λ _, None.

(** ** Vocabulary of the listing claim *)

Definition folder_mime : string := "application/vnd.google-apps.folder".

Definition is_folder (file : DriveFile) : bool :=
  bool_decide (mimeType file = folder_mime).

Definition to_metadata (file : DriveFile) : FileMetadata :=
  mkFileMetadata (file_name file) (file_id file).

(** The warning written for a folder among the entries. *)
Definition folder_warning (file : DriveFile) : string :=
  "Folder with name " +:+ file_name file +:+
  " found, skipping as nested folders are not supported".

(** The log line the listing loop writes for one entry. *)
Definition listing_line (file : DriveFile) : Event :=
  if is_folder file then Warning (folder_warning file)
  else
    Info ("Adding file " +:+ file_name file +:+ " to list of files to download").

(** The events of [run] up to and including the listing request. *)
Definition listing_prelude (token folderId : string) : list Event :=
  [SaveState "isPost" (VBool true); GetInput "token";
   GetInput "file-id"; GetInput "file-url";
   GetInput "folder-id"; GetInput "folder-url"; GetInput "path";
   Info ("Searching folder with Id " +:+ folderId);
   HttpGet (list_request token folderId)].

(** The events of [run] up to the point where the identifier is resolved. *)
Definition input_reads : list Event :=
  [SaveState "isPost" (VBool true); GetInput "token";
   GetInput "file-id"; GetInput "file-url";
   GetInput "folder-id"; GetInput "folder-url"; GetInput "path"].

(** A run with a token, a destination and a file URL, and no file id. *)
Definition file_url_only : Env :=
  plain_env [("token", "tok");
             ("file-url", "https://host/file/d/ABC123/view");
             ("path", "out.bin")] no_answer.

(** A run with a token, a destination and a folder URL, and no folder id. *)
Definition folder_url_only : Env :=
  plain_env [("token", "tok");
             ("folder-url", "https://host/drive/folders/XYZ");
             ("path", "out")] no_answer.

(** Answers every request with the same response. *)
Definition always (response : Response) : Request → option Response :=
  λ _, Some response.

(** ** Vocabulary of the run invariants *)

Definition drive_endpoint : string :=
  "https://www.googleapis.com/drive/v3/files/".

(** A request goes to the files endpoint, or below it, and carries the
    token as a bearer credential. *)
Definition authorized (token : string) (req : Request) : Prop :=
  JS.startsWith (req_url req) drive_endpoint = true
  ∧ ("Authorization", "Bearer " +:+ token) ∈ req_headers req.

(** What an event of the run phase can be, for the token and the destination
    that were read. *)
Definition run_event (token path : string) (e : Event) : Prop :=
  match e with
  | SaveState key v =>
      (key = "isPost" ∧ v = VBool true) ∨ (key = "path" ∧ ∃ n, v = VStr n)
  | GetInput input =>
      input ∈ ["token"; "file-id"; "file-url"; "folder-id"; "folder-url"; "path"]
  | HttpGet req => authorized token req
  | MkdirSync p => p = path
  | GetState _ => False
  | Error _ => False
  | _ => True
  end.

(** The paths on which a write stream was opened. *)
Definition opened_files (t : list Event) : list string :=
  omap (λ e, match e with CreateWriteStream p => Some p | _ => None end) t.

(** The directories that were created. *)
Definition created_dirs (t : list Event) : list string :=
  omap (λ e, match e with MkdirSync p => Some p | _ => None end) t.


(** * Properties *)

(** ** Strings *)

Lemma app_cons (a : ascii) (s t : string) :
  String a s +:+ t = String a (s +:+ t).
Proof. reflexivity. Qed.

Lemma string_app_assoc (s t u : string) : s +:+ t +:+ u = (s +:+ t) +:+ u.
Proof.
  induction s as [|a s IH]; [reflexivity|].
  rewrite !app_cons. by rewrite IH.
Qed.

Lemma length_app (s t : string) :
  String.length (s +:+ t) = (String.length s + String.length t)%nat.
Proof.
  induction s as [|a s IH]; [reflexivity|].
  rewrite app_cons. simpl. by rewrite IH.
Qed.

Lemma substring_skip (p s : string) (n m : nat) :
  String.substring (String.length p + n) m (p +:+ s) = String.substring n m s.
Proof.
  induction p as [|a p IH]; [reflexivity|].
  rewrite app_cons. simpl. exact IH.
Qed.

Lemma substring_whole (s : string) :
  String.substring 0 (String.length s) s = s.
Proof.
  induction s as [|a s IH]; [reflexivity|].
  simpl. by rewrite IH.
Qed.

Lemma substring_front (s t : string) :
  String.substring 0 (String.length s) (s +:+ t) = s.
Proof.
  induction s as [|a s IH].
  - simpl. by destruct t.
  - rewrite app_cons. simpl. by rewrite IH.
Qed.

Lemma substring_empty (s : string) (n : nat) : String.substring n 0 s = "".
Proof.
  revert n. induction s as [|a s IH]; intros [|n]; simpl; auto.
Qed.

Lemma prefix_app (p s : string) : String.prefix p (p +:+ s) = true.
Proof.
  induction p as [|a p IH]; [by destruct s|].
  rewrite app_cons. simpl. destruct (ascii_dec a a); [exact IH | done].
Qed.

Lemma startsWith_app (p s : string) : JS.startsWith (p +:+ s) p = true.
Proof. apply prefix_app. Qed.

Lemma endsWith_app (s p : string) : JS.endsWith (s +:+ p) p = true.
Proof.
  unfold JS.endsWith. rewrite length_app.
  destruct (Nat.leb_spec (String.length p) (String.length s + String.length p));
    [|lia].
  apply bool_decide_eq_true.
  replace (String.length s + String.length p - String.length p)%nat
    with (String.length s + 0)%nat by lia.
  rewrite substring_skip. apply substring_whole.
Qed.

Lemma endsWith_empty (s : string) : JS.endsWith s "" = true.
Proof.
  unfold JS.endsWith. simpl. apply bool_decide_eq_true, substring_empty.
Qed.

Lemma truthy_nonempty (s : string) : s ≠ "" → JS.truthy s = true.
Proof. by destruct s. Qed.

(** Cutting [p.length] code units off the front and [q.length] off the back
    of [p ++ x ++ q] leaves [x], as long as [q] is not empty. *)
Lemma slice_strip (p x q : string) :
  q ≠ "" →
  JS.slice (p +:+ x +:+ q) (JS.length p) (- JS.length q) = x.
Proof.
  intros Hq. unfold JS.slice, JS.relative, JS.length.
  rewrite !length_app.
  assert (0 < String.length q)%nat by (destruct q; [done | simpl; lia]).
  destruct (Z.ltb_spec (Z.of_nat (String.length p)) 0); [lia|].
  destruct (Z.ltb_spec (- Z.of_nat (String.length q)) 0); [|lia].
  rewrite Z.min_l by lia. rewrite (Z.max_l _ 0) by lia.
  rewrite Nat2Z.id.
  replace (Z.to_nat _) with (String.length x) by lia.
  replace (String.length p) with (String.length p + 0)%nat at 1 by lia.
  rewrite substring_skip. apply substring_front.
Qed.

(** With an empty suffix the end index is [-0], which [slice] reads as index
    0: nothing is left. *)
Lemma slice_to_minus_zero (s : string) (start : Z) :
  0 ≤ start → JS.slice s start (- JS.length "") = "".
Proof.
  intros Hs. unfold JS.slice, JS.relative, JS.length. simpl.
  destruct (Z.ltb_spec start 0); [lia|].
  rewrite (Z.min_l 0) by lia.
  rewrite Z.max_r by lia. apply substring_empty.
Qed.

(** ** The effect monad *)

Lemma bind_emit {A} (e : Event) (k : M A) :
  (emit e ;; k) = (e :: trace k, outcome k).
Proof. by destruct k. Qed.

Lemma bind_ret {A B} (a : A) (k : A → M B) : (ret a ≫= k) = k a.
Proof. unfold mbind, M_bind, bind, ret. by destruct (k a). Qed.

Lemma bind_getInput {A} (env : Env) (input : string) (k : string → M A) :
  (core_getInput env input ≫= k)
  = (GetInput input :: trace (k (inputs env input)),
     outcome (k (inputs env input))).
Proof.
  unfold core_getInput, mbind, M_bind, bind, emit, ret. simpl.
  by destruct (k (inputs env input)).
Qed.

Lemma bind_pair {A B} (t : list Event) (a : A) (k : A → M B) :
  ((t, Return a) ≫= k) = (t ++ trace (k a), outcome (k a)).
Proof. unfold mbind, M_bind, bind. by destruct (k a). Qed.

Lemma bind_axios_get {A} (env : Env) (req : Request) (response : Response)
  (k : Response → M A) :
  http env req = Some response →
  (axios_get env req ≫= k) = (HttpGet req :: trace (k response), outcome (k response)).
Proof.
  intros Hhttp. unfold axios_get. rewrite Hhttp, bind_emit.
  cbn [trace outcome fst snd ret]. by rewrite bind_pair.
Qed.

Lemma trace_bind_emit {A} (e : Event) (k : M A) :
  trace (emit e ;; k) = e :: trace k.
Proof. by rewrite bind_emit. Qed.

(** ** parseDriveIdFromURL *)

Lemma parse_absent (env : Env) (isFile : bool) :
  parseDriveIdFromURL env isFile None = ([], Return None).
Proof. reflexivity. Qed.

Lemma parse_empty_string (env : Env) (isFile : bool) :
  parseDriveIdFromURL env isFile (Some "") = ([], Return None).
Proof. reflexivity. Qed.

Lemma parse_invalid_url (env : Env) (isFile : bool) (url : string) :
  url ≠ "" → pathname env url = None →
  parseDriveIdFromURL env isFile (Some url) = ([], Throw (InvalidURL url)).
Proof.
  intros Hurl Hp. unfold parseDriveIdFromURL, new_URL_pathname.
  simpl. rewrite (truthy_nonempty _ Hurl). simpl. by rewrite Hp.
Qed.

(** Both shape checks pass: the slice is returned and nothing is logged. *)
Lemma parse_well_formed (env : Env) (isFile : bool) (url p : string) :
  url ≠ "" → pathname env url = Some p →
  JS.startsWith p (if isFile then "/file/d/" else "/drive/folders/") = true →
  JS.endsWith p (if isFile then "/view" else "") = true →
  parseDriveIdFromURL env isFile (Some url)
  = ([], Return (Some (JS.slice p
       (JS.length (if isFile then "/file/d/" else "/drive/folders/"))
       (- JS.length (if isFile then "/view" else ""))))).
Proof.
  intros Hurl Hp Hs He. unfold parseDriveIdFromURL, new_URL_pathname.
  simpl. rewrite (truthy_nonempty _ Hurl). simpl. rewrite Hp, bind_ret.
  by rewrite Hs, He.
Qed.

(** One shape check fails: one error line, whose text is the input between
    the fixed head and a closing parenthesis, and an absent result. *)
Lemma parse_ill_formed (env : Env) (isFile : bool) (url p : string) :
  url ≠ "" → pathname env url = Some p →
  JS.startsWith p (if isFile then "/file/d/" else "/drive/folders/") = false
  ∨ JS.endsWith p (if isFile then "/view" else "") = false →
  parseDriveIdFromURL env isFile (Some url)
  = ([Error ("file-url path seems ill-formed: " +:+ url +:+ ")")], Return None).
Proof.
  intros Hurl Hp Hbad. unfold parseDriveIdFromURL, new_URL_pathname.
  simpl. rewrite (truthy_nonempty _ Hurl). simpl. rewrite Hp, bind_ret.
  destruct Hbad as [-> | ->]; [done|].
  by rewrite orb_true_r.
Qed.

(** A folder path that passes the check is sliced from 15 to [-0]: the
    result is present and empty, whatever follows the prefix. *)
Lemma parse_folder_empty (env : Env) (url X : string) :
  url ≠ "" → pathname env url = Some ("/drive/folders/" +:+ X) →
  parseDriveIdFromURL env false (Some url) = ([], Return (Some "")).
Proof.
  intros Hurl Hp.
  rewrite (parse_well_formed env false url _ Hurl Hp).
  - by rewrite slice_to_minus_zero.
  - apply startsWith_app.
  - apply endsWith_empty.
Qed.

(** C2. At the folder URL of the specification,
    [parseDriveIdFromURL(false, "https://host/drive/folders/XYZ")], the path
    is ["/drive/folders/XYZ"], both shape checks pass, and the code returns
    the empty string: [slice(15, -0)] ends at index 0. The identifier
    ["XYZ"] is not returned. *)
Theorem parse_folder_url_XYZ_returns_empty :
  pathname (plain_env [] no_answer) "https://host/drive/folders/XYZ"
  = Some "/drive/folders/XYZ"
  ∧ parseDriveIdFromURL (plain_env [] no_answer) false
      (Some "https://host/drive/folders/XYZ")
    = ([], Return (Some ""))
  ∧ parseDriveIdFromURL (plain_env [] no_answer) false
      (Some "https://host/drive/folders/XYZ")
    ≠ ([], Return (Some "XYZ")).
Proof. split; [reflexivity|]. split; [reflexivity | discriminate]. Qed.

(** C3. For every identifier [X] (with or without a slash), on a URL whose
    path is ["/file/d/" ++ X ++ "/view"] the file grammar returns exactly
    [X] and logs nothing. *)
Theorem parse_file_view_returns_id (env : Env) (url X : string) :
  url ≠ "" →
  pathname env url = Some ("/file/d/" +:+ X +:+ "/view") →
  parseDriveIdFromURL env true (Some url) = ([], Return (Some X)).
Proof.
  intros Hurl Hp.
  rewrite (parse_well_formed env true url _ Hurl Hp).
  - by rewrite (slice_strip "/file/d/" X "/view").
  - apply startsWith_app.
  - rewrite string_app_assoc. apply endsWith_app.
Qed.

Lemma parse_file_view_returns_id_witness :
  "https://host/file/d/ABC123/view" ≠ ""
  ∧ pathname (plain_env [] no_answer) "https://host/file/d/ABC123/view"
    = Some ("/file/d/" +:+ "ABC123" +:+ "/view")
  ∧ parseDriveIdFromURL (plain_env [] no_answer) true
      (Some "https://host/file/d/ABC123/view")
    = ([], Return (Some "ABC123")).
Proof.
  split; [discriminate|]. split; [reflexivity|].
  apply (parse_file_view_returns_id (plain_env [] no_answer)
           "https://host/file/d/ABC123/view" "ABC123");
    [discriminate | reflexivity].
Defined.

(** C4. At the malformed URL of the specification the result is absent and
    one error line is written, and its text ends in a closing parenthesis
    that the documented message does not have: the template in the source
    reads [${path})]. An absent URL gives an absent result and no log. *)
Theorem parse_ill_formed_message_text :
  parseDriveIdFromURL (plain_env [] no_answer) true
    (Some "https://host/wrong/path")
  = ([Error "file-url path seems ill-formed: https://host/wrong/path)"],
     Return None)
  ∧ errors (trace (parseDriveIdFromURL (plain_env [] no_answer) true
                     (Some "https://host/wrong/path")))
    ≠ ["file-url path seems ill-formed: " +:+ "https://host/wrong/path"]
  ∧ parseDriveIdFromURL (plain_env [] no_answer) true None
    = ([], Return None).
Proof. split; [reflexivity|]. split; [discriminate | reflexivity]. Qed.

(** C10. When the path of a file URL is ["/file/d/view"], prefix and suffix
    overlap, both shape checks pass, and [slice(8, -5)] is empty: the result
    is present, empty, and nothing is logged. *)
Theorem parse_overlap_returns_empty (env : Env) (url : string) :
  url ≠ "" →
  pathname env url = Some "/file/d/view" →
  JS.startsWith "/file/d/view" "/file/d/" = true
  ∧ JS.endsWith "/file/d/view" "/view" = true
  ∧ parseDriveIdFromURL env true (Some url) = ([], Return (Some "")).
Proof.
  intros Hurl Hp. split; [reflexivity|]. split; [reflexivity|].
  by rewrite (parse_well_formed env true url _ Hurl Hp).
Qed.

Lemma parse_overlap_returns_empty_witness :
  "https://host/file/d/view" ≠ ""
  ∧ pathname (plain_env [] no_answer) "https://host/file/d/view"
    = Some "/file/d/view"
  ∧ parseDriveIdFromURL (plain_env [] no_answer) true
      (Some "https://host/file/d/view")
    = ([], Return (Some "")).
Proof.
  split; [discriminate|]. split; [reflexivity|].
  apply (parse_overlap_returns_empty (plain_env [] no_answer)
           "https://host/file/d/view");
    [discriminate | reflexivity].
Defined.

(** ** getGoogleDriveUrl *)

(** C5. The endpoint is the base URL followed by the identifier, and the
    bare base URL, with its trailing slash, when no identifier is given. *)
Theorem getGoogleDriveUrl_spec :
  (∀ d : string,
     getGoogleDriveUrl (Some d)
     = "https://www.googleapis.com/drive/v3/files/" +:+ d)
  ∧ getGoogleDriveUrl None = "https://www.googleapis.com/drive/v3/files/".
Proof. split; [intros d|]; reflexivity. Qed.

Example getGoogleDriveUrl_ABC :
  getGoogleDriveUrl (Some "ABC") = "https://www.googleapis.com/drive/v3/files/ABC".
Proof. reflexivity. Qed.

(** ** run *)

(** C6. Whatever the environment, and whether [run] returns or throws, the
    first event of the run phase is the write of [isPost = true] to the step
    state: every input read, failure signal and request comes after it. *)
Theorem run_saves_isPost_first (env : Env) :
  ∃ rest : list Event,
    trace (run env) = SaveState "isPost" (VBool true) :: rest.
Proof.
  unfold run. rewrite trace_bind_emit. eauto.
Qed.

Lemma run_without_token (env : Env) :
  inputs env "token" = "" →
  run env = ([SaveState "isPost" (VBool true); GetInput "token";
              SetFailed "No access token provided to action"], Return tt).
Proof.
  intros Ht. unfold run. rewrite bind_emit, bind_getInput, Ht. reflexivity.
Qed.

Lemma run_without_identifier (env : Env) :
  inputs env "token" ≠ "" →
  inputs env "file-id" = "" → inputs env "file-url" = "" →
  inputs env "folder-id" = "" → inputs env "folder-url" = "" →
  run env = ([SaveState "isPost" (VBool true); GetInput "token";
              GetInput "file-id"; GetInput "file-url";
              GetInput "folder-id"; GetInput "folder-url";
              SetFailed "You must define one of following four inputs: fileId, fileUrl, folderId, folderUrl"],
             Return tt).
Proof.
  intros Ht H1 H2 H3 H4. unfold run.
  rewrite bind_emit, bind_getInput, (truthy_nonempty _ Ht). cbn [negb].
  rewrite !bind_getInput, H1, H2, H3, H4. reflexivity.
Qed.

(** C7. With an empty token the run phase fails with "No access token
    provided to action"; with a token and the four identifier inputs empty
    it fails with the four-input message. In both cases it returns, that is
    the only failure, and no request is made. *)
Theorem run_configuration_errors (env : Env) :
  (inputs env "token" = "" →
     failures (trace (run env)) = ["No access token provided to action"]
     ∧ network_calls (trace (run env)) = []
     ∧ outcome (run env) = Return tt)
  ∧ (inputs env "token" ≠ "" →
     inputs env "file-id" = "" → inputs env "file-url" = "" →
     inputs env "folder-id" = "" → inputs env "folder-url" = "" →
     failures (trace (run env))
     = ["You must define one of following four inputs: fileId, fileUrl, folderId, folderUrl"]
     ∧ network_calls (trace (run env)) = []
     ∧ outcome (run env) = Return tt).
Proof.
  split.
  - intros Ht. by rewrite (run_without_token env Ht).
  - intros Ht H1 H2 H3 H4. by rewrite (run_without_identifier env Ht H1 H2 H3 H4).
Qed.

Lemma run_configuration_errors_witness :
  (inputs (plain_env [] no_answer) "token" = ""
   ∧ failures (trace (run (plain_env [] no_answer)))
     = ["No access token provided to action"]
   ∧ network_calls (trace (run (plain_env [] no_answer))) = [])
  ∧ (inputs (plain_env [("token", "tok"); ("path", "out.bin")] no_answer) "token"
     ≠ ""
     ∧ failures (trace (run (plain_env [("token", "tok"); ("path", "out.bin")]
                               no_answer)))
       = ["You must define one of following four inputs: fileId, fileUrl, folderId, folderUrl"]
     ∧ network_calls (trace (run (plain_env [("token", "tok"); ("path", "out.bin")]
                                    no_answer))) = []).
Proof.
  split.
  - split; [reflexivity|].
    pose proof (proj1 (run_configuration_errors (plain_env [] no_answer))
                  eq_refl) as (Hf & Hn & _).
    by split.
  - split; [discriminate|].
    destruct (proj2 (run_configuration_errors
                (plain_env [("token", "tok"); ("path", "out.bin")] no_answer)))
      as (Hf & Hn & _); [discriminate | reflexivity ..|].
    by split.
Defined.

(** ** downloadFile *)



(** ** The folder listing *)

(** The loop appends the metadata of the entries that are not folders, in
    order, and writes one line for each entry. *)
Lemma add_files_spec (files : list DriveFile) (fileIds : list FileMetadata) :
  add_files files fileIds
  = (listing_line <$> files,
     Return (fileIds ++
             (to_metadata <$> filter (λ file, mimeType file ≠ folder_mime) files))).
Proof.
  revert fileIds. induction files as [|file rest IH]; intros fileIds.
  - simpl. by rewrite app_nil_r.
  - cbn [add_files]. rewrite fmap_cons. unfold listing_line at 1, is_folder.
    fold folder_mime. case_bool_decide as Hm.
    + rewrite bind_emit, IH. rewrite filter_cons_False by (intros Hne; by apply Hne).
      reflexivity.
    + rewrite bind_emit, IH. rewrite filter_cons_True by done.
      rewrite fmap_cons, <- app_assoc. reflexivity.
Qed.

Lemma warnings_listing (files : list DriveFile) :
  warnings (listing_line <$> files)
  = folder_warning <$> filter (λ file, mimeType file = folder_mime) files.
Proof.
  induction files as [|file rest IH]; [reflexivity|].
  rewrite fmap_cons. unfold warnings in *. cbn [omap list_omap].
  unfold listing_line at 1, is_folder. case_bool_decide as Hm.
  - rewrite filter_cons_True by done. rewrite fmap_cons. by f_equal.
  - by rewrite filter_cons_False.
Qed.

Lemma failures_listing (files : list DriveFile) :
  failures (listing_line <$> files) = [].
Proof.
  induction files as [|file rest IH]; [reflexivity|].
  rewrite fmap_cons. unfold failures in *. cbn [omap list_omap].
  unfold listing_line at 1. by destruct (is_folder file).
Qed.

Lemma network_calls_listing (files : list DriveFile) :
  network_calls (listing_line <$> files) = [].
Proof.
  induction files as [|file rest IH]; [reflexivity|].
  rewrite fmap_cons. unfold network_calls in *. cbn [omap list_omap].
  unfold listing_line at 1. by destruct (is_folder file).
Qed.

Lemma failures_app (t1 t2 : list Event) :
  failures (t1 ++ t2) = failures t1 ++ failures t2.
Proof. apply omap_app. Qed.

Lemma network_calls_app (t1 t2 : list Event) :
  network_calls (t1 ++ t2) = network_calls t1 ++ network_calls t2.
Proof. apply omap_app. Qed.

(** The run phase on a folder identifier whose listing is answered with
    status 200. *)
Lemma run_folder_listing (env : Env) (response : Response) :
  inputs env "token" ≠ "" →
  inputs env "file-id" = "" → inputs env "file-url" = "" →
  inputs env "folder-id" ≠ "" → inputs env "path" ≠ "" →
  http env (list_request (inputs env "token") (inputs env "folder-id"))
  = Some response →
  status response = 200 →
  run env
  = (listing_prelude (inputs env "token") (inputs env "folder-id")
     ++ (listing_line <$> data_files response)
     ++ trace (dispatch env (inputs env "token") (inputs env "path")
                 (to_metadata <$> filter (λ file, mimeType file ≠ folder_mime)
                                    (data_files response))),
     outcome (dispatch env (inputs env "token") (inputs env "path")
                (to_metadata <$> filter (λ file, mimeType file ≠ folder_mime)
                                   (data_files response)))).
Proof.
  intros Ht H1 H2 H3 Hp Hhttp Hs. unfold run.
  rewrite bind_emit, bind_getInput, (truthy_nonempty _ Ht). cbn [negb].
  rewrite !bind_getInput, H1, H2, (truthy_nonempty _ H3).
  cbn [JS.truthy negb andb].
  rewrite (truthy_nonempty _ Hp). cbn [negb JS.or JS.truthy].
  unfold resolve_folder, nullish. rewrite bind_ret.
  cbn [JS.truthy_opt]. rewrite (truthy_nonempty _ H3). cbn [negb from_option Datatypes.id].
  rewrite bind_emit, (bind_axios_get _ _ _ _ Hhttp).
  rewrite bool_decide_eq_false_2 by (intros Hne; by apply Hne).
  rewrite add_files_spec. cbn [app]. rewrite bind_pair.
  cbn [trace outcome fst snd ret]. rewrite app_nil_r, bind_pair.
  reflexivity.
Qed.

(** C8. When the listing is answered with status 200, the resolution list
    is made of the entries of [files] whose MIME type is not the folder
    type, each as [{name: file.name, id: file.id}] and in order; the
    warnings are those of the folder entries; and when nothing was appended
    the run phase fails with "Failed to find any files to download". *)
Theorem folder_listing_resolution (env : Env) (response : Response) :
  inputs env "token" ≠ "" →
  inputs env "file-id" = "" → inputs env "file-url" = "" →
  inputs env "folder-id" ≠ "" → inputs env "path" ≠ "" →
  http env (list_request (inputs env "token") (inputs env "folder-id"))
  = Some response →
  status response = 200 →
  ∃ fileIds : list FileMetadata,
    add_files (data_files response) [] = (listing_line <$> data_files response,
                                          Return fileIds)
    ∧ fileIds = to_metadata <$> filter (λ file, mimeType file ≠ folder_mime)
                                  (data_files response)
    ∧ run env
      = (listing_prelude (inputs env "token") (inputs env "folder-id")
         ++ (listing_line <$> data_files response)
         ++ trace (dispatch env (inputs env "token") (inputs env "path") fileIds),
         outcome (dispatch env (inputs env "token") (inputs env "path") fileIds))
    ∧ warnings (trace (add_files (data_files response) []))
      = folder_warning <$> filter (λ file, mimeType file = folder_mime)
                             (data_files response)
    ∧ (fileIds = [] →
       failures (trace (run env)) = ["Failed to find any files to download"]
       ∧ network_calls (trace (run env))
         = [list_request (inputs env "token") (inputs env "folder-id")]
       ∧ outcome (run env) = Return tt).
Proof.
  intros Ht H1 H2 H3 Hp Hhttp Hs.
  pose proof (run_folder_listing env response Ht H1 H2 H3 Hp Hhttp Hs) as Hrun.
  eexists. split; [apply add_files_spec|]. cbn [app].
  split; [reflexivity|]. split; [exact Hrun|split].
  - rewrite add_files_spec. apply warnings_listing.
  - intros Hnil. rewrite Hrun, Hnil. cbn [dispatch emit trace outcome fst snd].
    rewrite !failures_app, !network_calls_app.
    rewrite failures_listing, network_calls_listing.
    split; [reflexivity|]. split; reflexivity.
Qed.

Lemma folder_listing_resolution_witness :
  (∃ fileIds : list FileMetadata,
     add_files [mkDriveFile "a.txt" "A" "text/plain";
                mkDriveFile "sub" "S" folder_mime] []
     = ([Info "Adding file a.txt to list of files to download";
         Warning "Folder with name sub found, skipping as nested folders are not supported"],
        Return fileIds)
     ∧ fileIds = [mkFileMetadata "a.txt" "A"])
  ∧ failures (trace (run
       (plain_env [("token", "tok"); ("folder-id", "FOLD"); ("path", "out")]
          (always (mkResponse 200 [mkDriveFile "sub" "S" folder_mime] "")))))
    = ["Failed to find any files to download"].
Proof.
  split.
  - destruct (folder_listing_resolution
      (plain_env [("token", "tok"); ("folder-id", "FOLD"); ("path", "out")]
         (always (mkResponse 200 [mkDriveFile "a.txt" "A" "text/plain";
                                  mkDriveFile "sub" "S" folder_mime] "")))
      (mkResponse 200 [mkDriveFile "a.txt" "A" "text/plain";
                       mkDriveFile "sub" "S" folder_mime] ""))
      as (fileIds & Hadd & Hids & _);
      [discriminate | reflexivity | reflexivity | discriminate | discriminate
      | reflexivity | reflexivity |].
    exists fileIds. split; [exact Hadd | rewrite Hids; reflexivity].
  - destruct (folder_listing_resolution
      (plain_env [("token", "tok"); ("folder-id", "FOLD"); ("path", "out")]
         (always (mkResponse 200 [mkDriveFile "sub" "S" folder_mime] "")))
      (mkResponse 200 [mkDriveFile "sub" "S" folder_mime] ""))
      as (fileIds & _ & Hids & _ & _ & Hzero);
      [discriminate | reflexivity | reflexivity | discriminate | discriminate
      | reflexivity | reflexivity |].
    apply Hzero. rewrite Hids. reflexivity.
Defined.

(** ** Identifier resolution in run *)

(** An input read by [core.getInput] is a string, never [undefined], so the
    right operand of [fileId ?? parseDriveIdFromURL(true, fileUrl)] is never
    evaluated: with an empty file id the resolved identifier is the empty
    string, whatever the file URL is. *)
Lemma run_file_url_only (env : Env) :
  inputs env "token" ≠ "" →
  inputs env "file-id" = "" → inputs env "file-url" ≠ "" →
  inputs env "path" ≠ "" →
  run env = (input_reads ++ [SetFailed "Unknown file id"], Return tt).
Proof.
  intros Ht H1 H2 Hp. unfold run.
  rewrite bind_emit, bind_getInput, (truthy_nonempty _ Ht). cbn [negb].
  rewrite !bind_getInput, H1, (truthy_nonempty _ H2).
  cbn [JS.truthy negb andb].
  rewrite (truthy_nonempty _ Hp). cbn [negb JS.or JS.truthy].
  rewrite (truthy_nonempty _ H2).
  reflexivity.
Qed.

Lemma run_folder_url_only (env : Env) :
  inputs env "token" ≠ "" →
  inputs env "file-id" = "" → inputs env "file-url" = "" →
  inputs env "folder-id" = "" → inputs env "folder-url" ≠ "" →
  inputs env "path" ≠ "" →
  run env
  = (input_reads ++ [SetFailed "Action could not determine folder id"],
     Return tt).
Proof.
  intros Ht H1 H2 H3 H4 Hp. unfold run.
  rewrite bind_emit, bind_getInput, (truthy_nonempty _ Ht). cbn [negb].
  rewrite !bind_getInput, H1, H2, H3, (truthy_nonempty _ H4).
  cbn [JS.truthy negb andb].
  rewrite (truthy_nonempty _ Hp).
  reflexivity.
Qed.

(** C1. With the file id empty and the file URL
    [https://host/file/d/ABC123/view], parsing the URL would give
    ["ABC123"], yet the run phase does not parse it: it reads the inputs and
    fails with "Unknown file id", without any request. In the same way, with
    the folder id empty and a folder URL given it fails with "Action could
    not determine folder id". *)
Theorem run_url_inputs_not_resolved :
  (inputs file_url_only "file-id" = ""
   ∧ parseDriveIdFromURL file_url_only true
       (Some (inputs file_url_only "file-url"))
     = ([], Return (Some "ABC123"))
   ∧ run file_url_only
     = (input_reads ++ [SetFailed "Unknown file id"], Return tt))
  ∧ (inputs folder_url_only "folder-id" = ""
     ∧ inputs folder_url_only "folder-url" = "https://host/drive/folders/XYZ"
     ∧ run folder_url_only
       = (input_reads ++ [SetFailed "Action could not determine folder id"],
          Return tt)).
Proof.
  split.
  - split; [reflexivity|]. split; [reflexivity|].
    by apply run_file_url_only.
  - split; [reflexivity|]. split; [reflexivity|].
    by apply run_folder_url_only.
Qed.

(** ** The dispatcher and the post phase *)

Lemma post_does_nothing : post = ([], Return tt).
Proof. reflexivity. Qed.

Lemma main_first_invocation (env : Env) :
  saved env "isPost" = "" →
  main env = (GetState "isPost" :: trace (run env), outcome (run env)).
Proof.
  intros Hs. unfold main, core_getState.
  rewrite bind_emit. cbn [trace outcome fst snd ret]. rewrite bind_pair, Hs.
  cbn [JS.truthy negb app]. reflexivity.
Qed.

Lemma main_second_invocation (env : Env) :
  saved env "isPost" ≠ "" →
  main env = ([GetState "isPost"], Return tt).
Proof.
  intros Hs. unfold main, core_getState.
  rewrite bind_emit. cbn [trace outcome fst snd ret]. rewrite bind_pair.
  rewrite (truthy_nonempty _ Hs). reflexivity.
Qed.

(** * Further properties *)

(** ** More on strings *)

Lemma startsWith_inv (s p : string) :
  JS.startsWith s p = true → ∃ r, s = p +:+ r.
Proof.
  unfold JS.startsWith. revert s.
  induction p as [|a p IH]; intros s Hs.
  - by exists s.
  - destruct s as [|b s]; [done|]. simpl in Hs.
    destruct (ascii_dec a b) as [->|]; [|done].
    destruct (IH s Hs) as [r ->]. by exists r.
Qed.

Lemma substring_split (s : string) (n : nat) :
  (n ≤ String.length s)%nat →
  s = String.substring 0 n s +:+ String.substring n (String.length s - n) s.
Proof.
  revert n. induction s as [|a s IH]; intros n Hn.
  - simpl in Hn. by replace n with 0%nat by lia.
  - destruct n as [|n].
    + simpl. by rewrite substring_whole.
    + simpl in Hn. simpl. rewrite app_cons. f_equal. apply IH. lia.
Qed.

Lemma endsWith_inv (s p : string) :
  JS.endsWith s p = true → ∃ q, s = q +:+ p.
Proof.
  unfold JS.endsWith.
  destruct (Nat.leb_spec (String.length p) (String.length s)) as [Hle|]; [|done].
  intros Hs%bool_decide_eq_true.
  exists (String.substring 0 (String.length s - String.length p) s).
  pose proof (substring_split s (String.length s - String.length p)) as Hsplit.
  replace (String.length s - (String.length s - String.length p))%nat
    with (String.length p) in Hsplit by lia.
  rewrite Hs in Hsplit. apply Hsplit. lia.
Qed.

(** A suffix that fits into the tail is looked for in the tail. *)
Lemma endsWith_skip (q s p : string) :
  (String.length p ≤ String.length s)%nat →
  JS.endsWith (q +:+ s) p = JS.endsWith s p.
Proof.
  intros Hle. unfold JS.endsWith. rewrite length_app.
  destruct (Nat.leb_spec (String.length p) (String.length q + String.length s));
    [|lia].
  destruct (Nat.leb_spec (String.length p) (String.length s)); [|lia].
  replace (String.length q + String.length s - String.length p)%nat
    with (String.length q + (String.length s - String.length p))%nat by lia.
  by rewrite substring_skip.
Qed.

(** ** More on parseDriveIdFromURL *)

(** The parser, case by case, on a URL string that is not empty. *)
Lemma parse_unfold (env : Env) (isFile : bool) (url : string) :
  url ≠ "" →
  parseDriveIdFromURL env isFile (Some url)
  = match pathname env url with
    | None => ([], Throw (InvalidURL url))
    | Some p =>
        if JS.startsWith p (if isFile then "/file/d/" else "/drive/folders/")
           && JS.endsWith p (if isFile then "/view" else "")
        then ([], Return (Some (JS.slice p
               (JS.length (if isFile then "/file/d/" else "/drive/folders/"))
               (- JS.length (if isFile then "/view" else "")))))
        else ([Error ("file-url path seems ill-formed: " +:+ url +:+ ")")],
              Return None)
    end.
Proof.
  intros Hurl. destruct (pathname env url) as [p|] eqn:Hp.
  - destruct (JS.startsWith p _) eqn:Hs; [destruct (JS.endsWith p _) eqn:He|].
    + by apply parse_well_formed.
    + apply (parse_ill_formed env isFile url p Hurl Hp). by right.
    + apply (parse_ill_formed env isFile url p Hurl Hp). by left.
  - by apply parse_invalid_url.
Qed.

(** The parser never returns an identifier together with a log line, never
    throws after logging, and logs at most one line: either the trace is
    empty, or it is the single error line and the result is absent. *)
Theorem parse_logs_only_when_absent (env : Env) (isFile : bool)
  (path : option string) :
  trace (parseDriveIdFromURL env isFile path) = []
  ∨ (outcome (parseDriveIdFromURL env isFile path) = Return None
     ∧ ∃ url, path = Some url
         ∧ trace (parseDriveIdFromURL env isFile path)
           = [Error ("file-url path seems ill-formed: " +:+ url +:+ ")")]).
Proof.
  destruct path as [url|]; [|by left].
  destruct (decide (url = "")) as [->|Hurl]; [by left|].
  rewrite (parse_unfold env isFile url Hurl).
  destruct (pathname env url) as [p|]; [|by left].
  destruct (_ && _); [by left|]. right. split; [done|]. by exists url.
Qed.

(** With the folder grammar an identifier that is returned is always the
    empty string: the slice ends at index [-0]. *)
Theorem parse_folder_result_empty (env : Env) (path : option string)
  (t : list Event) (d : string) :
  parseDriveIdFromURL env false path = (t, Return (Some d)) →
  d = "" ∧ t = [].
Proof.
  destruct path as [url|]; [|done].
  destruct (decide (url = "")) as [->|Hurl]; [done|].
  rewrite (parse_unfold env false url Hurl).
  destruct (pathname env url) as [p|]; [|done].
  destruct (_ && _); [|done].
  rewrite slice_to_minus_zero by done. by intros [= <- <-].
Qed.

Lemma parse_folder_result_empty_witness :
  parseDriveIdFromURL (plain_env [] no_answer) false
    (Some "https://host/drive/folders/XYZ") = ([], Return (Some ""))
  ∧ "" = "" ∧ @nil Event = [].
Proof.
  split; [reflexivity|].
  apply (parse_folder_result_empty (plain_env [] no_answer)
           (Some "https://host/drive/folders/XYZ") [] "").
  reflexivity.
Defined.

(** With the file grammar an identifier that is returned is what stands
    between ["/file/d/"] and ["/view"] in the path of the URL; the one
    exception is the path ["/file/d/view"], where the two overlap and the
    identifier is empty. Nothing is logged. *)
Theorem parse_file_result_inversion (env : Env) (url : string)
  (t : list Event) (d : string) :
  parseDriveIdFromURL env true (Some url) = (t, Return (Some d)) →
  t = []
  ∧ ∃ p, pathname env url = Some p
      ∧ (p = "/file/d/" +:+ d +:+ "/view" ∨ (d = "" ∧ p = "/file/d/view")).
Proof.
  destruct (decide (url = "")) as [->|Hurl]; [done|].
  rewrite (parse_unfold env true url Hurl).
  destruct (pathname env url) as [p|]; [|done].
  destruct (JS.startsWith p _) eqn:Hs; [|done].
  destruct (JS.endsWith p _) eqn:He; [|done].
  cbn [andb]. intros [= <- <-]. split; [done|]. exists p. split; [done|].
  apply startsWith_inv in Hs as [r ->].
  destruct (decide (5 ≤ String.length r)%nat) as [Hlen|Hlen].
  - rewrite endsWith_skip in He by done.
    apply endsWith_inv in He as [x ->]. left.
    by rewrite (slice_strip "/file/d/" x "/view").
  - right.
    destruct r as [|a [|b [|c [|e [|f r]]]]]; [..|simpl in Hlen; lia];
      unfold JS.endsWith in He; cbv [String.append] in He |- *;
      cbn in He; apply bool_decide_eq_true in He; by simplify_eq.
Qed.

Lemma parse_file_result_inversion_witness :
  parseDriveIdFromURL (plain_env [] no_answer) true
    (Some "https://host/file/d/ABC123/view") = ([], Return (Some "ABC123"))
  ∧ ∃ p, pathname (plain_env [] no_answer) "https://host/file/d/ABC123/view"
         = Some p
      ∧ (p = "/file/d/" +:+ "ABC123" +:+ "/view"
         ∨ ("ABC123" = "" ∧ p = "/file/d/view")).
Proof.
  split; [reflexivity|].
  apply (parse_file_result_inversion (plain_env [] no_answer)
           "https://host/file/d/ABC123/view" [] "ABC123").
  reflexivity.
Defined.

(** ** More on downloadFile *)

Lemma downloadFile_unfold (env : Env) (token : string) (file : FileMetadata)
  (response : Response) :
  http env (download_request token file) = Some response →
  downloadFile env token file
  = (HttpGet (download_request token file)
       :: trace (downloadFile_resume file response),
     outcome (downloadFile_resume file response)).
Proof. intros Hhttp. unfold downloadFile. by apply bind_axios_get. Qed.

Lemma downloadFile_resume_ok (file : FileMetadata) (response : Response) :
  status response = 200 →
  downloadFile_resume file response
  = ([SaveState "path" (VStr (name file)); CreateWriteStream (name file);
      Pipe (data_stream response) (name file)], Return tt).
Proof.
  intros Hs. unfold downloadFile_resume.
  by rewrite bool_decide_eq_false_2 by (intros Hne; by apply Hne).
Qed.


(** When the request is rejected [downloadFile] throws right after sending
    it: no failure is signalled, and step state and file system stay as they
    are. *)
Theorem downloadFile_rejected (env : Env) (token : string)
  (file : FileMetadata) :
  http env (download_request token file) = None →
  downloadFile env token file
  = ([HttpGet (download_request token file)],
     Throw (RequestRejected (download_request token file)))
  ∧ failures (trace (downloadFile env token file)) = []
  ∧ ∀ w : World, exec w (trace (downloadFile env token file)) = w.
Proof.
  intros Hhttp.
  assert (downloadFile env token file
          = ([HttpGet (download_request token file)],
             Throw (RequestRejected (download_request token file)))) as ->.
  { unfold downloadFile, axios_get. by rewrite Hhttp. }
  done.
Qed.

Lemma downloadFile_rejected_witness :
  http (plain_env [] no_answer)
    (download_request "tok" (mkFileMetadata "out.bin" "F1")) = None
  ∧ outcome (downloadFile (plain_env [] no_answer) "tok"
               (mkFileMetadata "out.bin" "F1"))
    = Throw (RequestRejected
               (download_request "tok" (mkFileMetadata "out.bin" "F1"))).
Proof.
  split; [reflexivity|].
  destruct (downloadFile_rejected (plain_env [] no_answer) "tok"
              (mkFileMetadata "out.bin" "F1") eq_refl) as [-> _].
  reflexivity.
Defined.



(** ** More on run: the destination and the file identifier *)

Lemma failures_downloadFile_resume_ok (file : FileMetadata)
  (response : Response) :
  status response = 200 → failures (trace (downloadFile_resume file response)) = [].
Proof. intros Hs. by rewrite (downloadFile_resume_ok file response Hs). Qed.

Lemma network_calls_downloadFile_resume (file : FileMetadata)
  (response : Response) :
  network_calls (trace (downloadFile_resume file response)) = [].
Proof. unfold downloadFile_resume. by case_bool_decide. Qed.

Lemma network_calls_downloadFile (env : Env) (token : string)
  (file : FileMetadata) :
  network_calls (trace (downloadFile env token file))
  = [download_request token file].
Proof.
  destruct (http env (download_request token file)) as [response|] eqn:Hhttp.
  - rewrite (downloadFile_unfold env token file response Hhttp).
    cbn [trace fst]. unfold network_calls at 1. cbn [omap list_omap].
    fold (network_calls (trace (downloadFile_resume file response))).
    by rewrite network_calls_downloadFile_resume.
  - unfold downloadFile, axios_get. by rewrite Hhttp.
Qed.

(** The check of the four identifier inputs passes as soon as one of them is
    not empty. *)
Lemma one_identifier_given (a b c d : string) :
  a ≠ "" ∨ b ≠ "" ∨ c ≠ "" ∨ d ≠ "" →
  negb (JS.truthy a) && negb (JS.truthy b)
  && negb (JS.truthy c) && negb (JS.truthy d) = false.
Proof.
  intros [H|[H|[H|H]]]; rewrite (truthy_nonempty _ H); cbn [negb];
    by rewrite ?andb_false_r.
Qed.

Lemma run_without_path (env : Env) :
  inputs env "token" ≠ "" →
  inputs env "file-id" ≠ "" ∨ inputs env "file-url" ≠ ""
  ∨ inputs env "folder-id" ≠ "" ∨ inputs env "folder-url" ≠ "" →
  inputs env "path" = "" →
  run env = (input_reads ++ [SetFailed "No path provided to action"], Return tt).
Proof.
  intros Ht Hid Hp. unfold run.
  rewrite bind_emit, bind_getInput, (truthy_nonempty _ Ht). cbn [negb].
  rewrite !bind_getInput, (one_identifier_given _ _ _ _ Hid), Hp.
  reflexivity.
Qed.

(** With a token and an identifier input but no destination, the run phase
    fails with "No path provided to action" and returns: that is the only
    failure, no request is made, no directory and no file is created. *)
Theorem run_path_missing (env : Env) :
  inputs env "token" ≠ "" →
  inputs env "file-id" ≠ "" ∨ inputs env "file-url" ≠ ""
  ∨ inputs env "folder-id" ≠ "" ∨ inputs env "folder-url" ≠ "" →
  inputs env "path" = "" →
  failures (trace (run env)) = ["No path provided to action"]
  ∧ network_calls (trace (run env)) = []
  ∧ opened_files (trace (run env)) = []
  ∧ created_dirs (trace (run env)) = []
  ∧ outcome (run env) = Return tt.
Proof.
  intros Ht Hid Hp. by rewrite (run_without_path env Ht Hid Hp).
Qed.

Lemma run_path_missing_witness :
  inputs (plain_env [("token", "tok"); ("file-id", "F1")] no_answer) "path" = ""
  ∧ failures (trace (run (plain_env [("token", "tok"); ("file-id", "F1")]
                            no_answer)))
    = ["No path provided to action"].
Proof.
  split; [reflexivity|].
  apply (run_path_missing (plain_env [("token", "tok"); ("file-id", "F1")]
                             no_answer));
    [discriminate | left; discriminate | reflexivity].
Defined.








(** ** More on run: the folder listing *)

(** The run phase on a folder identifier, up to the handling of the answer
    to the listing request. *)
Lemma run_with_folder_id (env : Env) :
  inputs env "token" ≠ "" →
  inputs env "file-id" = "" → inputs env "file-url" = "" →
  inputs env "folder-id" ≠ "" → inputs env "path" ≠ "" →
  run env
  = match http env (list_request (inputs env "token") (inputs env "folder-id"))
    with
    | None =>
        (listing_prelude (inputs env "token") (inputs env "folder-id"),
         Throw (RequestRejected
                  (list_request (inputs env "token") (inputs env "folder-id"))))
    | Some response =>
        if bool_decide (status response ≠ 200) then
          (listing_prelude (inputs env "token") (inputs env "folder-id")
           ++ [SetFailed ("Failed to list files in folder from Google drive: "
                          +:+ JS.number_to_string (status response))],
           Return tt)
        else
          (listing_prelude (inputs env "token") (inputs env "folder-id")
           ++ (listing_line <$> data_files response)
           ++ trace (dispatch env (inputs env "token") (inputs env "path")
                       (to_metadata <$>
                        filter (λ file, mimeType file ≠ folder_mime)
                          (data_files response))),
           outcome (dispatch env (inputs env "token") (inputs env "path")
                      (to_metadata <$>
                       filter (λ file, mimeType file ≠ folder_mime)
                         (data_files response))))
    end.
Proof.
  intros Ht H1 H2 H3 Hp.
  destruct (http env _) as [response|] eqn:Hhttp.
  - case_bool_decide as Hs.
    + unfold run.
      rewrite bind_emit, bind_getInput, (truthy_nonempty _ Ht). cbn [negb].
      rewrite !bind_getInput, H1, H2, (truthy_nonempty _ H3).
      cbn [JS.truthy negb andb].
      rewrite (truthy_nonempty _ Hp). cbn [negb JS.or JS.truthy].
      unfold resolve_folder, nullish. rewrite bind_ret.
      cbn [JS.truthy_opt]. rewrite (truthy_nonempty _ H3).
      cbn [negb from_option Datatypes.id].
      rewrite bind_emit, (bind_axios_get _ _ _ _ Hhttp).
      rewrite bool_decide_eq_true_2 by done.
      rewrite bind_emit. cbn [trace outcome fst snd ret].
      rewrite bind_pair. reflexivity.
    + apply run_folder_listing; try done.
  - unfold run.
    rewrite bind_emit, bind_getInput, (truthy_nonempty _ Ht). cbn [negb].
    rewrite !bind_getInput, H1, H2, (truthy_nonempty _ H3).
    cbn [JS.truthy negb andb].
    rewrite (truthy_nonempty _ Hp). cbn [negb JS.or JS.truthy].
    unfold resolve_folder, nullish. rewrite bind_ret.
    cbn [JS.truthy_opt]. rewrite (truthy_nonempty _ H3).
    cbn [negb from_option Datatypes.id].
    rewrite bind_emit. unfold axios_get. rewrite Hhttp.
    reflexivity.
Qed.



(** When the listing request is rejected the exception escapes from the run
    phase: no failure is signalled through the SDK, and nothing is written
    apart from [isPost]. *)
Theorem run_listing_rejected (env : Env) :
  inputs env "token" ≠ "" →
  inputs env "file-id" = "" → inputs env "file-url" = "" →
  inputs env "folder-id" ≠ "" → inputs env "path" ≠ "" →
  http env (list_request (inputs env "token") (inputs env "folder-id")) = None →
  outcome (run env)
  = Throw (RequestRejected
             (list_request (inputs env "token") (inputs env "folder-id")))
  ∧ failures (trace (run env)) = []
  ∧ opened_files (trace (run env)) = []
  ∧ created_dirs (trace (run env)) = [].
Proof.
  intros Ht H1 H2 H3 Hp Hhttp.
  by rewrite (run_with_folder_id env Ht H1 H2 H3 Hp), Hhttp.
Qed.

Lemma run_listing_rejected_witness :
  http (plain_env [("token", "tok"); ("folder-id", "FOLD"); ("path", "out")]
          no_answer) (list_request "tok" "FOLD") = None
  ∧ failures (trace (run
       (plain_env [("token", "tok"); ("folder-id", "FOLD"); ("path", "out")]
          no_answer))) = [].
Proof.
  split; [reflexivity|].
  apply (run_listing_rejected
           (plain_env [("token", "tok"); ("folder-id", "FOLD"); ("path", "out")]
              no_answer));
    try discriminate; reflexivity.
Defined.

(** ** More on run: several files *)

Lemma forEach_emit {A} (l : list A) (g : A → Event) :
  forEach l (λ x, emit (g x)) = (g <$> l, Return tt).
Proof.
  induction l as [|x l IH]; [reflexivity|].
  cbn [forEach]. by rewrite bind_emit, IH.
Qed.

Lemma bind_detached {A} (m : M unit) (k : M A) :
  (detached m ;; k) = (trace m ++ trace k, outcome k).
Proof. unfold detached. by rewrite bind_pair. Qed.

Lemma forEach_detached {A} (l : list A) (f : A → M unit) :
  forEach l (λ x, detached (f x))
  = (concat ((λ x, trace (f x)) <$> l), Return tt).
Proof.
  induction l as [|x l IH]; [reflexivity|].
  change (forEach (x :: l) (λ x, detached (f x)))
    with (detached (f x) ;; forEach l (λ x, detached (f x))).
  by rewrite bind_detached, IH.
Qed.

(** With two files or more and the directory created, every request is sent
    before any answer is handled, and [dispatch] returns. *)
Lemma dispatch_many (env : Env) (token path : string)
  (file1 file2 : FileMetadata) (rest : list FileMetadata) :
  mkdir_ok env path = true →
  dispatch env token path (file1 :: file2 :: rest)
  = (MkdirSync path
     :: ((λ file, HttpGet (download_request token file))
           <$> file1 :: file2 :: rest)
     ++ concat ((λ file, trace (downloadFile_answered env token file))
                  <$> arrival env (file1 :: file2 :: rest)),
     Return tt).
Proof.
  intros Hok. unfold dispatch, fs_mkdirSync. rewrite Hok.
  rewrite bind_emit, (forEach_emit _ (λ file, HttpGet (download_request token file))).
  rewrite bind_pair, forEach_detached.
  reflexivity.
Qed.

Lemma dispatch_mkdir_failed (env : Env) (token path : string)
  (file1 file2 : FileMetadata) (rest : list FileMetadata) :
  mkdir_ok env path = false →
  dispatch env token path (file1 :: file2 :: rest)
  = ([], Throw (MkdirFailed path)).
Proof. intros Hok. unfold dispatch, fs_mkdirSync. by rewrite Hok. Qed.

Lemma network_calls_answered (env : Env) (token : string)
  (files : list FileMetadata) :
  network_calls
    (concat ((λ file, trace (downloadFile_answered env token file)) <$> files))
  = [].
Proof.
  induction files as [|file files IH]; [reflexivity|].
  rewrite fmap_cons. cbn [concat]. rewrite network_calls_app, IH.
  unfold downloadFile_answered.
  destruct (http env _); [|reflexivity].
  by rewrite network_calls_downloadFile_resume.
Qed.

Lemma network_calls_requests (token : string) (files : list FileMetadata) :
  network_calls ((λ file, HttpGet (download_request token file)) <$> files)
  = download_request token <$> files.
Proof.
  induction files as [|file files IH]; [reflexivity|].
  rewrite !fmap_cons. unfold network_calls in *. cbn [omap list_omap].
  by rewrite IH.
Qed.

Lemma network_calls_dispatch (env : Env) (token path : string)
  (fileIds : list FileMetadata) :
  (length fileIds ≤ 1)%nat ∨ mkdir_ok env path = true →
  network_calls (trace (dispatch env token path fileIds))
  = download_request token <$> fileIds.
Proof.
  intros Hok. destruct fileIds as [|file1 [|file2 rest]].
  - reflexivity.
  - apply network_calls_downloadFile.
  - destruct Hok as [Hlen|Hok]; [simpl in Hlen; lia|].
    rewrite (dispatch_many env token path file1 file2 rest Hok).
    cbn [trace fst]. unfold network_calls at 1. cbn [omap list_omap].
    fold (network_calls
            (((λ file, HttpGet (download_request token file))
                <$> file1 :: file2 :: rest)
             ++ concat ((λ file, trace (downloadFile_answered env token file))
                          <$> arrival env (file1 :: file2 :: rest)))).
    rewrite network_calls_app, network_calls_answered, app_nil_r.
    apply network_calls_requests.
Qed.

(** After a listing answered with status 200, the run phase sends one
    retrieval request for each entry that is not a folder, in the order of the
    listing and after the listing request, and no other request. This holds
    when there is at most one such entry, or when the directory can be
    created. *)
Theorem run_folder_requests (env : Env) (response : Response) :
  inputs env "token" ≠ "" →
  inputs env "file-id" = "" → inputs env "file-url" = "" →
  inputs env "folder-id" ≠ "" → inputs env "path" ≠ "" →
  http env (list_request (inputs env "token") (inputs env "folder-id"))
  = Some response →
  status response = 200 →
  (length (filter (λ file, mimeType file ≠ folder_mime) (data_files response))
   ≤ 1)%nat
  ∨ mkdir_ok env (inputs env "path") = true →
  network_calls (trace (run env))
  = list_request (inputs env "token") (inputs env "folder-id")
    :: (download_request (inputs env "token")
          <$> (to_metadata
                 <$> filter (λ file, mimeType file ≠ folder_mime)
                       (data_files response))).
Proof.
  intros Ht H1 H2 H3 Hp Hhttp Hs Hok.
  rewrite (run_folder_listing env response Ht H1 H2 H3 Hp Hhttp Hs).
  cbn [trace fst]. rewrite !network_calls_app, network_calls_listing.
  rewrite network_calls_dispatch by (by rewrite length_fmap).
  reflexivity.
Qed.

Lemma run_folder_requests_witness :
  mkdir_ok (plain_env [("token", "tok"); ("folder-id", "FOLD"); ("path", "out")]
     (always (mkResponse 200 [mkDriveFile "a.txt" "A" "text/plain";
                              mkDriveFile "sub" "S" folder_mime;
                              mkDriveFile "b.txt" "B" "text/plain"] ""))) "out"
  = true
  ∧ network_calls (trace (run
       (plain_env [("token", "tok"); ("folder-id", "FOLD"); ("path", "out")]
          (always (mkResponse 200 [mkDriveFile "a.txt" "A" "text/plain";
                                   mkDriveFile "sub" "S" folder_mime;
                                   mkDriveFile "b.txt" "B" "text/plain"] "")))))
    = [list_request "tok" "FOLD";
       download_request "tok" (mkFileMetadata "a.txt" "A");
       download_request "tok" (mkFileMetadata "b.txt" "B")].
Proof.
  split; [reflexivity|].
  rewrite (run_folder_requests
    (plain_env [("token", "tok"); ("folder-id", "FOLD"); ("path", "out")]
       (always (mkResponse 200 [mkDriveFile "a.txt" "A" "text/plain";
                                mkDriveFile "sub" "S" folder_mime;
                                mkDriveFile "b.txt" "B" "text/plain"] "")))
    (mkResponse 200 [mkDriveFile "a.txt" "A" "text/plain";
                     mkDriveFile "sub" "S" folder_mime;
                     mkDriveFile "b.txt" "B" "text/plain"] ""));
    try discriminate; try reflexivity.
  right. reflexivity.
Defined.

(** The lines of the listing loop are log lines only. *)
Lemma omap_listing {A} (g : Event → option A) (files : list DriveFile) :
  (∀ msg, g (Warning msg) = None) → (∀ msg, g (Info msg) = None) →
  omap g (listing_line <$> files) = [].
Proof.
  intros Hw Hi. induction files as [|file files IH]; [reflexivity|].
  rewrite fmap_cons. cbn [omap list_omap]. rewrite IH.
  unfold listing_line. destruct (is_folder file); by rewrite ?Hw, ?Hi.
Qed.

(** When two entries or more are to be downloaded and the directory cannot
    be created, the exception of [mkdirSync] escapes from the run phase
    before any retrieval request: the listing is the only request, no file is
    opened, and no failure is signalled through the SDK. *)
Theorem run_mkdir_fails (env : Env) (response : Response) :
  inputs env "token" ≠ "" →
  inputs env "file-id" = "" → inputs env "file-url" = "" →
  inputs env "folder-id" ≠ "" → inputs env "path" ≠ "" →
  http env (list_request (inputs env "token") (inputs env "folder-id"))
  = Some response →
  status response = 200 →
  (2 ≤ length (filter (λ file, mimeType file ≠ folder_mime)
                 (data_files response)))%nat →
  mkdir_ok env (inputs env "path") = false →
  outcome (run env) = Throw (MkdirFailed (inputs env "path"))
  ∧ network_calls (trace (run env))
    = [list_request (inputs env "token") (inputs env "folder-id")]
  ∧ opened_files (trace (run env)) = []
  ∧ created_dirs (trace (run env)) = []
  ∧ failures (trace (run env)) = [].
Proof.
  intros Ht H1 H2 H3 Hp Hhttp Hs Hlen Hok.
  rewrite (run_folder_listing env response Ht H1 H2 H3 Hp Hhttp Hs).
  rewrite <- (length_fmap to_metadata) in Hlen.
  destruct (to_metadata <$> _) as [|file1 [|file2 rest]];
    [simpl in Hlen; lia ..|].
  rewrite (dispatch_mkdir_failed env _ _ file1 file2 rest Hok).
  cbn [trace outcome fst snd]. rewrite app_nil_r.
  unfold network_calls, opened_files, created_dirs, failures.
  rewrite !omap_app, !omap_listing by done. done.
Qed.

Lemma run_mkdir_fails_witness :
  mkdir_ok (mkEnv
     (lookup_input [("token", "tok"); ("folder-id", "FOLD"); ("path", "out")])
     (λ _, "") plain_pathname
     (always (mkResponse 200 [mkDriveFile "a.txt" "A" "text/plain";
                              mkDriveFile "b.txt" "B" "text/plain"] ""))
     (λ _, false) (λ l, l)) "out" = false
  ∧ outcome (run (mkEnv
     (lookup_input [("token", "tok"); ("folder-id", "FOLD"); ("path", "out")])
     (λ _, "") plain_pathname
     (always (mkResponse 200 [mkDriveFile "a.txt" "A" "text/plain";
                              mkDriveFile "b.txt" "B" "text/plain"] ""))
     (λ _, false) (λ l, l)))
    = Throw (MkdirFailed "out").
Proof.
  split; [reflexivity|].
  apply (run_mkdir_fails (mkEnv
     (lookup_input [("token", "tok"); ("folder-id", "FOLD"); ("path", "out")])
     (λ _, "") plain_pathname
     (always (mkResponse 200 [mkDriveFile "a.txt" "A" "text/plain";
                              mkDriveFile "b.txt" "B" "text/plain"] ""))
     (λ _, false) (λ l, l))
     (mkResponse 200 [mkDriveFile "a.txt" "A" "text/plain";
                      mkDriveFile "b.txt" "B" "text/plain"] ""));
    try discriminate; reflexivity.
Defined.




(** ** What the run phase can do at all *)

Lemma Forall_bind {A B} (P : Event → Prop) (m : M A) (k : A → M B) :
  Forall P (trace m) →
  (∀ a, outcome m = Return a → Forall P (trace (k a))) →
  Forall P (trace (m ≫= k)).
Proof.
  destruct m as [t [a|e]]; intros Ht Hk; [|done].
  rewrite bind_pair. apply Forall_app. split; [done|]. by apply Hk.
Qed.

Lemma Forall_emit (P : Event → Prop) (e : Event) :
  P e → Forall P (trace (emit e)).
Proof. intros He. by constructor. Qed.

Lemma Forall_forEach {A} (P : Event → Prop) (l : list A) (f : A → M unit) :
  (∀ x, Forall P (trace (f x))) → Forall P (trace (forEach l f)).
Proof.
  intros Hf. induction l as [|x l IH]; [constructor|].
  change (forEach (x :: l) f) with (f x ;; forEach l f).
  by apply Forall_bind.
Qed.

Lemma authorized_download (token : string) (file : FileMetadata) :
  authorized token (download_request token file).
Proof.
  split; [apply startsWith_app | apply list_elem_of_here].
Qed.

Lemma authorized_list (token folderId : string) :
  authorized token (list_request token folderId).
Proof.
  split; [apply (startsWith_app drive_endpoint "") | apply list_elem_of_here].
Qed.

Lemma downloadFile_resume_events (token path : string) (file : FileMetadata)
  (response : Response) :
  Forall (run_event token path) (trace (downloadFile_resume file response)).
Proof.
  unfold downloadFile_resume. case_bool_decide.
  - by apply Forall_emit.
  - apply Forall_bind; [apply Forall_emit; right; eauto|]. intros _ _.
    apply Forall_bind; [by apply Forall_emit|]. intros _ _.
    by apply Forall_emit.
Qed.

Lemma downloadFile_events (env : Env) (token path : string)
  (file : FileMetadata) :
  Forall (run_event token path) (trace (downloadFile env token file)).
Proof.
  unfold downloadFile. apply Forall_bind.
  - unfold axios_get. apply Forall_bind.
    + apply Forall_emit, authorized_download.
    + intros _ _. by destruct (http env _).
  - intros response _. apply downloadFile_resume_events.
Qed.

Lemma dispatch_events (env : Env) (token path : string)
  (fileIds : list FileMetadata) :
  Forall (run_event token path) (trace (dispatch env token path fileIds)).
Proof.
  destruct fileIds as [|file1 [|file2 rest]].
  - by apply Forall_emit.
  - apply downloadFile_events.
  - unfold dispatch. apply Forall_bind.
    { unfold fs_mkdirSync. destruct (mkdir_ok env path); [|constructor].
      by apply Forall_emit. }
    intros _ _. apply Forall_bind.
    { apply Forall_forEach. intros file.
      apply Forall_emit, authorized_download. }
    intros _ _. apply Forall_forEach. intros file.
    unfold detached, downloadFile_answered. cbn [trace fst].
    destruct (http env _); [|constructor].
    apply downloadFile_resume_events.
Qed.

Lemma resolve_file_events (env : Env) (token path fileId fileUrl : string)
  (fileIds : list FileMetadata) :
  Forall (run_event token path)
    (trace (resolve_file env fileId fileUrl path fileIds)).
Proof.
  unfold resolve_file, nullish. rewrite bind_ret.
  destruct (negb _); by repeat constructor.
Qed.

Lemma resolve_folder_events (env : Env) (token path folderId folderUrl : string)
  (fileIds : list FileMetadata) :
  Forall (run_event token path)
    (trace (resolve_folder env token folderId folderUrl fileIds)).
Proof.
  unfold resolve_folder, nullish. rewrite bind_ret.
  destruct (negb _); [by repeat constructor|].
  apply Forall_bind; [by apply Forall_emit|]. intros _ _.
  apply Forall_bind.
  { unfold axios_get. apply Forall_bind.
    - apply Forall_emit, authorized_list.
    - intros _ _. by destruct (http env _). }
  intros response _. case_bool_decide.
  - by repeat constructor.
  - rewrite add_files_spec, bind_pair. cbn [trace fst ret]. rewrite app_nil_r.
    apply Forall_fmap, Forall_forall. intros file _.
    unfold compose, listing_line. by destruct (is_folder file).
Qed.

Lemma outcome_getInput (env : Env) (input a : string) :
  outcome (core_getInput env input) = Return a → a = inputs env input.
Proof. by intros [= <-]. Qed.

Lemma getInput_events (env : Env) (P : Event → Prop) (input : string) :
  P (GetInput input) → Forall P (trace (core_getInput env input)).
Proof. intros HP. by constructor. Qed.

(** Every event of the run phase is one of those [run_event] lists, for the
    token and the destination read from the inputs. *)
Lemma run_events (env : Env) :
  Forall (run_event (inputs env "token") (inputs env "path")) (trace (run env)).
Proof.
  unfold run.
  apply Forall_bind; [apply Forall_emit; by left|]. intros _ _.
  apply Forall_bind; [apply getInput_events; set_solver|].
  intros token ->%outcome_getInput.
  destruct (negb _); [by apply Forall_emit|].
  apply Forall_bind; [apply getInput_events; set_solver|]. intros fileId _.
  apply Forall_bind; [apply getInput_events; set_solver|]. intros fileUrl _.
  apply Forall_bind; [apply getInput_events; set_solver|]. intros folderId _.
  apply Forall_bind; [apply getInput_events; set_solver|]. intros folderUrl _.
  destruct (_ && _); [by apply Forall_emit|].
  apply Forall_bind; [apply getInput_events; set_solver|].
  intros path ->%outcome_getInput.
  destruct (negb _); [by apply Forall_emit|].
  apply Forall_bind.
  - destruct (JS.truthy _);
      [apply resolve_file_events | apply resolve_folder_events].
  - intros [fileIds|] _; [apply dispatch_events | constructor].
Qed.

(** Every request the run phase makes, in any environment and on any path
    through it, goes to the files endpoint of the Drive API or below it and
    carries the token as [Authorization: Bearer <token>]: the token is sent
    nowhere else. *)
Theorem run_requests_authorized (env : Env) (req : Request) :
  req ∈ network_calls (trace (run env)) →
  JS.startsWith (req_url req) "https://www.googleapis.com/drive/v3/files/"
  = true
  ∧ ("Authorization", "Bearer " +:+ inputs env "token") ∈ req_headers req.
Proof.
  intros (e & He & Hreq)%list_elem_of_omap.
  pose proof (proj1 (Forall_forall _ _) (run_events env) e He) as Hev.
  destruct e; try done. by injection Hreq as <-.
Qed.

Lemma run_requests_authorized_witness :
  download_request "tok" (mkFileMetadata "out.bin" "F1")
  ∈ network_calls (trace (run
      (plain_env [("token", "tok"); ("file-id", "F1"); ("path", "out.bin")]
         no_answer)))
  ∧ ("Authorization", "Bearer tok")
    ∈ req_headers (download_request "tok" (mkFileMetadata "out.bin" "F1")).
Proof.
  assert (download_request "tok" (mkFileMetadata "out.bin" "F1")
          ∈ network_calls (trace (run
              (plain_env [("token", "tok"); ("file-id", "F1");
                          ("path", "out.bin")] no_answer)))) as Hin.
  { apply list_elem_of_In. simpl. auto. }
  split; [exact Hin|].
  apply (run_requests_authorized
           (plain_env [("token", "tok"); ("file-id", "F1"); ("path", "out.bin")]
              no_answer) _ Hin).
Defined.

Lemma exec_keeps_isPost (token path : string) (t : list Event) (w : World) :
  Forall (run_event token path) t →
  step_state w !! "isPost" = Some (VBool true) →
  step_state (exec w t) !! "isPost" = Some (VBool true).
Proof.
  unfold exec. revert w. induction t as [|e t IH]; intros w Ht Hw; [done|].
  apply Forall_cons in Ht as [He Ht]. cbn [foldl]. apply IH; [done|].
  destruct e; try done. cbn [apply_event step_state].
  destruct He as [[-> ->]|[-> _]].
  - by rewrite lookup_insert_eq.
  - by rewrite lookup_insert_ne.
Qed.

(** Whatever the environment and however the run phase ends (a return, a
    signalled failure or an exception), the step state it leaves has [isPost]
    set to true: nothing that follows the first write touches that key. *)
Theorem run_leaves_isPost_set (env : Env) (w : World) :
  step_state (exec w (trace (run env))) !! "isPost" = Some (VBool true).
Proof.
  pose proof (run_events env) as Hev.
  assert (∃ rest, trace (run env) = SaveState "isPost" (VBool true) :: rest)
    as [rest Hrest].
  { unfold run. rewrite trace_bind_emit. eauto. }
  rewrite Hrest in Hev |- *. apply Forall_cons in Hev as [_ Hev].
  unfold exec. cbn [foldl]. apply (exec_keeps_isPost _ _ _ _ Hev).
  cbn [apply_event step_state]. by rewrite lookup_insert_eq.
Qed.


(** ** More on the listing loop *)

(** The listing loop keeps what is already in the list in front, writes one
    log line per entry, and every entry is either appended or warned about,
    never both: the appended entries and the warnings add up to the entries. *)
Theorem add_files_accounts_for_entries (files : list DriveFile)
  (fileIds : list FileMetadata) :
  ∃ added : list FileMetadata,
    add_files files fileIds
    = (trace (add_files files fileIds), Return (fileIds ++ added))
    ∧ length (trace (add_files files fileIds)) = length files
    ∧ (length added + length (warnings (trace (add_files files fileIds)))
       = length files)%nat
    ∧ failures (trace (add_files files fileIds)) = [].
Proof.
  rewrite add_files_spec. cbn [trace fst]. eexists. split; [reflexivity|].
  rewrite !length_fmap, warnings_listing, length_fmap, failures_listing.
  split; [done|]. split; [|done].
  induction files as [|file files IH]; [done|].
  destruct (decide (mimeType file = folder_mime)) as [Hm|Hm].
  - rewrite (filter_cons_True (λ f, mimeType f = folder_mime)) by done.
    rewrite filter_cons_False by (intros Hne; by apply Hne).
    simpl. lia.
  - rewrite (filter_cons_False (λ f, mimeType f = folder_mime)) by done.
    rewrite filter_cons_True by done.
    simpl. lia.
Qed.

(** ** More on the dispatcher *)

(** The module reads [isPost] once. When it is unset the run phase follows;
    when it is set the post phase follows, which does nothing: no input is
    read, no request is made, no failure is signalled, and step state and
    file system stay as they are. *)
Theorem main_phase_selection (env : Env) :
  (saved env "isPost" = "" →
     main env = (GetState "isPost" :: trace (run env), outcome (run env)))
  ∧ (saved env "isPost" ≠ "" →
     main env = ([GetState "isPost"], Return tt)
     ∧ ∀ w : World, exec w (trace (main env)) = w).
Proof.
  split; intros Hs.
  - by apply main_first_invocation.
  - by rewrite (main_second_invocation env Hs).
Qed.

Lemma main_phase_selection_witness :
  (saved (plain_env [] no_answer) "isPost" = ""
   ∧ failures (trace (main (plain_env [] no_answer)))
     = ["No access token provided to action"])
  ∧ (saved (mkEnv (λ _, "") (λ _, "true") plain_pathname no_answer
              (λ _, true) (λ l, l)) "isPost" ≠ ""
     ∧ trace (main (mkEnv (λ _, "") (λ _, "true") plain_pathname no_answer
                      (λ _, true) (λ l, l)))
       = [GetState "isPost"]).
Proof.
  split.
  - split; [reflexivity|].
    rewrite (proj1 (main_phase_selection (plain_env [] no_answer)) eq_refl).
    reflexivity.
  - split; [discriminate|].
    destruct (proj2 (main_phase_selection
                (mkEnv (λ _, "") (λ _, "true") plain_pathname no_answer
                   (λ _, true) (λ l, l)))) as [-> _]; [discriminate|].
    reflexivity.
Defined.

(** ** More on run: a folder with one file *)




